(** * StreamingHashedSparseFeatures: a shallow embedding

    The streaming feature-hashing pipeline of
    [src/shogun/features/streaming/StreamingHashedSparseFeatures.cpp],
    written as Rocq functions over an explicit object state, followed by the
    properties of its construction, its example life cycle and its vector
    algebra. *)

From Stdlib Require Import ZArith List Bool String Lia.
From Stdlib Require Import SpecFloat.
Import ListNotations.
Open Scope Z_scope.

Set Implicit Arguments.

(** ** Outcomes of a call

    [ASSERT(c)] raises a ShogunException when [c] is false.  Reading or
    writing through a raw pointer outside the array it points to, and using
    the result of a [static_pointer_cast] to a class the object does not
    have, have no defined result in C++: both are [Undefined]. *)

Inductive ShogunException : Type :=
| AssertionFailed (cond : string).

Inductive outcome (A : Type) : Type :=
| Ok (a : A)
| Raise (e : ShogunException)
| Undefined.

Arguments Ok {A} a.
Arguments Raise {A} e.
Arguments Undefined {A}.

Definition ASSERT {A : Type} (c : bool) (cond : string) (k : outcome A) : outcome A :=
  if c then k else Raise (AssertionFailed cond).

Definition raises {A : Type} (r : outcome A) : bool :=
  match r with
  | Raise _ => true
  | _ => false
  end.

(** ** Feature tags

    The enumerations are declared outside this file; the file names one
    enumerator of each. *)

Inductive EFeatureType : Type :=
| F_UINT
| F_OTHER (tag : nat).

Inductive EFeatureClass : Type :=
| C_STREAMING_SPARSE
| C_OTHER (tag : nat).

Definition EFeatureType_eqb (a b : EFeatureType) : bool :=
  match a, b with
  | F_UINT, F_UINT => true
  | F_OTHER m, F_OTHER n => Nat.eqb m n
  | _, _ => false
  end.

(** ** Arithmetic of one template instantiation

    [ST] is the element type, [float32_t] the type of dense vectors and of
    [alpha], [wide] the common type in which C++ evaluates an expression
    that mixes a [float32_t] with an [ST] ([float32_t] itself for [bool],
    the integer types and [float32_t]; [float64_t] and [floatmax_t] for
    these two).  No law is asked of the operations. *)

Class Arith (ST float32_t wide : Type) : Type := {
  f32_zero : float32_t;
  f32_abs : float32_t -> float32_t;
  f32_to_wide : float32_t -> wide;
  ST_to_wide : ST -> wide;
  wide_to_f32 : wide -> float32_t;
  wide_add : wide -> wide -> wide;
  wide_mul : wide -> wide -> wide;
  ST_zero : ST;
  ST_add : ST -> ST -> ST;
  ST_mul : ST -> ST -> ST;
  ST_abs : ST -> ST;
  ST_to_f32 : ST -> float32_t
}.

(** ** Hash functions, used by the hash transform only. *)

Class Hashing : Type := {
  hash : Z -> Z;
  hash_pair : Z -> Z -> Z
}.

(** ** Sparse vectors *)

Section SparseVector.
Variable ST : Type.

Record SGSparseVectorEntry : Type := {
  feat_index : Z;
  entry : ST
}.

(** [features] is the array behind the pointer, [num_feat_entries] the
    count stored next to it. *)
Record SGSparseVector : Type := {
  num_feat_entries : Z;
  features : list SGSparseVectorEntry
}.

(** [SGSparseVector<ST> tmp;] : no entries, null pointer. *)
Definition empty_vector : SGSparseVector :=
  {| num_feat_entries := 0; features := [] |}.

Definition well_formed (v : SGSparseVector) : Prop :=
  num_feat_entries v = Z.of_nat (List.length (features v)).

Definition index_in (d : Z) (e : SGSparseVectorEntry) : Prop :=
  0 <= feat_index e < d.

Definition indices_below (d : Z) (v : SGSparseVector) : Prop :=
  Forall (index_in d) (features v).
End SparseVector.

Arguments empty_vector {ST}.

(** ** Arrays behind raw pointers *)

Definition array_get {A : Type} (a : list A) (i : Z) : option A :=
  if i <? 0 then None else nth_error a (Z.to_nat i).

Fixpoint list_set {A : Type} (a : list A) (n : nat) (x : A) : list A :=
  match a, n with
  | [], _ => []
  | _ :: t, O => x :: t
  | h :: t, S n' => h :: list_set t n' x
  end.

(** ** The sources an example stream is read from *)

Section Sources.
Variables ST float64_t : Type.

(** A batch of sparse vectors held in memory. *)
Definition SparseFeatures : Type := list (SGSparseVector ST).

Inductive StreamingFile : Type :=
| ExternalFile (handle : nat)
| StreamingFileFromSparseFeatures
    (dot_features : SparseFeatures) (lab : option (list float64_t)).
End Sources.

Arguments ExternalFile {ST float64_t} handle.

(** ** The parser (producer) interface

    The parser class is declared outside this file.  The pipeline uses the
    operations below; [get_next_example] receives the three variables it is
    given by reference (as one vector and one label) and returns its status
    with their new contents. *)

Module Parser.
Class Ops (ST float64_t P : Type) : Type := {
  init : StreamingFile ST float64_t -> bool -> Z -> P -> P;
  set_read_vector : P -> P;
  set_read_vector_and_label : P -> P;
  set_free_vector_after_release : bool -> P -> P;
  set_free_vectors_on_destruct : bool -> P -> P;
  is_running : P -> bool;
  start_parser : P -> P;
  end_parser : P -> P;
  get_next_example :
    P -> SGSparseVector ST -> float64_t -> bool * SGSparseVector ST * float64_t * P;
  finalize_example : P -> P
}.
End Parser.


(** ** The hash transform and the sparse dot product

    Both are functions of other classes of the library
    ([HashedSparseFeatures<ST>::hash_vector], [SGSparseVector<ST>::sparse_dot])
    whose code is not in this file. *)

Section Transform.
Context {ST float32_t wide : Type} {A : Arith ST float32_t wide} {H : Hashing}.

Definition linear_terms (raw : list (SGSparseVectorEntry ST)) (d : Z)
  : list (SGSparseVectorEntry ST) :=
  map (fun e => {| feat_index := hash (feat_index e) mod d; entry := entry e |}) raw.

Fixpoint quadratic_terms (raw : list (SGSparseVectorEntry ST)) (d : Z)
  : list (SGSparseVectorEntry ST) :=
  match raw with
  | [] => []
  | e :: rest =>
      map (fun e' => {| feat_index := hash_pair (feat_index e) (feat_index e') mod d;
                        entry := ST_mul (entry e) (entry e') |}) (e :: rest)
      ++ quadratic_terms rest d
  end.

Fixpoint merge_entry (e : SGSparseVectorEntry ST) (acc : list (SGSparseVectorEntry ST))
  : list (SGSparseVectorEntry ST) :=
  match acc with
  | [] => [e]
  | a :: acc' =>
      if feat_index a =? feat_index e
      then {| feat_index := feat_index a; entry := ST_add (entry a) (entry e) |} :: acc'
      else a :: merge_entry e acc'
  end.

Definition compact (terms : list (SGSparseVectorEntry ST)) : list (SGSparseVectorEntry ST) :=
  fold_left (fun acc e => merge_entry e acc) terms [].

(** Modelled from the spec: [HashedSparseFeatures<ST>::hash_vector], missing
    from the sources.  Each entry (i, v) gives the linear term
    (hash(i) mod dim, v) unless quadratic terms are on and linear terms are
    not kept; with quadratic terms on, each unordered pair of entries, an
    entry with itself included, gives (hash_pair(i, j) mod dim, v_i * v_j);
    terms with one target index are merged by summation, so that the output
    has one entry per target index and its count is their number. *)
Definition hash_vector (vec : SGSparseVector ST) (d : Z) (use_quadr keep_lin : bool)
  : SGSparseVector ST :=
  let raw := firstn (Z.to_nat (num_feat_entries vec)) (features vec) in
  let terms :=
    (if negb use_quadr || keep_lin then linear_terms raw d else [])
    ++ (if use_quadr then quadratic_terms raw d else []) in
  let out := compact terms in
  {| num_feat_entries := Z.of_nat (List.length out); features := out |}.

Definition value_at (b : list (SGSparseVectorEntry ST)) (i : Z) (acc : ST) (x : ST) : ST :=
  fold_left
    (fun acc eb => if feat_index eb =? i then ST_add acc (ST_mul x (entry eb)) else acc)
    b acc.

(** Modelled from the spec: [SGSparseVector<ST>::sparse_dot], missing from the
    sources: the sum, over the indices present in both vectors, of the
    products of the two values. *)
Definition sparse_dot (a b : SGSparseVector ST) : ST :=
  fold_left
    (fun acc ea =>
       value_at (firstn (Z.to_nat (num_feat_entries b)) (features b))
                (feat_index ea) acc (entry ea))
    (firstn (Z.to_nat (num_feat_entries a)) (features a)) ST_zero.

(** [a += b * e] with [a], [b] of type [float32_t] and [e] of type [ST]:
    the product and the sum are taken in the common type, the assignment
    converts back. *)
Definition mul_add_assign (a b : float32_t) (e : ST) : float32_t :=
  wide_to_f32 (wide_add (f32_to_wide a) (wide_mul (f32_to_wide b) (ST_to_wide e))).

End Transform.


(** ** The pipeline object *)

Section Pipeline.
Context {ST float32_t wide float64_t P : Type}.
Context {A : Arith ST float32_t wide} {H : Hashing} {PO : Parser.Ops ST float64_t P}.

(** The members the file reads or writes: [dim], [use_quadratic],
    [keep_linear_terms], [current_vector], [current_label] and [parser] of the
    class, [has_labels], [seekable] and [working_file] of its base class.
    [dim] is an [int32_t]; the file stores, returns and compares it and does
    no arithmetic on it, so it is a [Z] here. *)
Record StreamingHashedSparseFeatures : Type := {
  dim : Z;
  use_quadratic : bool;
  keep_linear_terms : bool;
  has_labels : bool;
  seekable : bool;
  working_file : option (StreamingFile ST float64_t);
  parser : P;
  current_vector : SGSparseVector ST;
  current_label : float64_t
}.

Definition with_dim (d : Z) (this : StreamingHashedSparseFeatures) :=
  {| dim := d; use_quadratic := use_quadratic this;
     keep_linear_terms := keep_linear_terms this; has_labels := has_labels this;
     seekable := seekable this; working_file := working_file this;
     parser := parser this; current_vector := current_vector this;
     current_label := current_label this |}.

Definition with_use_quadratic (b : bool) (this : StreamingHashedSparseFeatures) :=
  {| dim := dim this; use_quadratic := b;
     keep_linear_terms := keep_linear_terms this; has_labels := has_labels this;
     seekable := seekable this; working_file := working_file this;
     parser := parser this; current_vector := current_vector this;
     current_label := current_label this |}.

Definition with_keep_linear_terms (b : bool) (this : StreamingHashedSparseFeatures) :=
  {| dim := dim this; use_quadratic := use_quadratic this;
     keep_linear_terms := b; has_labels := has_labels this;
     seekable := seekable this; working_file := working_file this;
     parser := parser this; current_vector := current_vector this;
     current_label := current_label this |}.

Definition with_has_labels (b : bool) (this : StreamingHashedSparseFeatures) :=
  {| dim := dim this; use_quadratic := use_quadratic this;
     keep_linear_terms := keep_linear_terms this; has_labels := b;
     seekable := seekable this; working_file := working_file this;
     parser := parser this; current_vector := current_vector this;
     current_label := current_label this |}.

Definition with_seekable (b : bool) (this : StreamingHashedSparseFeatures) :=
  {| dim := dim this; use_quadratic := use_quadratic this;
     keep_linear_terms := keep_linear_terms this; has_labels := has_labels this;
     seekable := b; working_file := working_file this;
     parser := parser this; current_vector := current_vector this;
     current_label := current_label this |}.

Definition with_working_file (f : option (StreamingFile ST float64_t))
    (this : StreamingHashedSparseFeatures) :=
  {| dim := dim this; use_quadratic := use_quadratic this;
     keep_linear_terms := keep_linear_terms this; has_labels := has_labels this;
     seekable := seekable this; working_file := f;
     parser := parser this; current_vector := current_vector this;
     current_label := current_label this |}.

Definition with_parser (p : P) (this : StreamingHashedSparseFeatures) :=
  {| dim := dim this; use_quadratic := use_quadratic this;
     keep_linear_terms := keep_linear_terms this; has_labels := has_labels this;
     seekable := seekable this; working_file := working_file this;
     parser := p; current_vector := current_vector this;
     current_label := current_label this |}.

Definition with_current_vector (v : SGSparseVector ST)
    (this : StreamingHashedSparseFeatures) :=
  {| dim := dim this; use_quadratic := use_quadratic this;
     keep_linear_terms := keep_linear_terms this; has_labels := has_labels this;
     seekable := seekable this; working_file := working_file this;
     parser := parser this; current_vector := v;
     current_label := current_label this |}.

Definition with_current_label (l : float64_t) (this : StreamingHashedSparseFeatures) :=
  {| dim := dim this; use_quadratic := use_quadratic this;
     keep_linear_terms := keep_linear_terms this; has_labels := has_labels this;
     seekable := seekable this; working_file := working_file this;
     parser := parser this; current_vector := current_vector this;
     current_label := l |}.

(** The object as its base-class and member constructors leave it, before a
    constructor body of this file runs: no working file, an empty current
    vector; the other members hold whatever the memory holds. *)
Definition members_constructed (this : StreamingHashedSparseFeatures) : Prop :=
  working_file this = None /\ current_vector this = empty_vector.

Definition set_vector_reader (this : StreamingHashedSparseFeatures) :=
  with_parser (Parser.set_read_vector (parser this)) this.

Definition set_vector_and_label_reader (this : StreamingHashedSparseFeatures) :=
  with_parser (Parser.set_read_vector_and_label (parser this)) this.

(** The base class's [set_read_functions] calls the two virtual setters
    above. *)
Definition set_read_functions (this : StreamingHashedSparseFeatures) :=
  set_vector_and_label_reader (set_vector_reader this).

(** [init].  [SG_ADD] registers a member under a name and [set_generic]
    records the element type: neither touches a member of the record. *)
Definition init (this : StreamingHashedSparseFeatures)
    (file : option (StreamingFile ST float64_t)) (is_labelled : bool)
    (size d : Z) (use_quadr keep_lin_terms : bool) : StreamingHashedSparseFeatures :=
  let this := with_dim d this in
  let this := with_use_quadratic use_quadr this in
  let this := with_keep_linear_terms keep_lin_terms this in
  let this := with_has_labels is_labelled this in
  let this :=
    match file with
    | Some f =>
        let this := with_working_file (Some f) this in
        let this := with_parser (Parser.init f is_labelled size (parser this)) this in
        with_seekable false this
    | None => this
    end in
  let this := set_read_functions this in
  with_parser (Parser.set_free_vector_after_release false (parser this)) this.

(** The three constructors. *)
Definition new_default (this : StreamingHashedSparseFeatures) :=
  init this None false 0 0 false true.

Definition new_from_file (this : StreamingHashedSparseFeatures)
    (file : option (StreamingFile ST float64_t)) (is_labelled : bool)
    (size d : Z) (use_quadr keep_lin_terms : bool) :=
  init this file is_labelled size d use_quadr keep_lin_terms.

Definition is_null {X : Type} (p : option X) : bool :=
  match p with
  | Some _ => false
  | None => true
  end.

Definition new_from_features (this : StreamingHashedSparseFeatures)
    (dot_features : option (SparseFeatures ST)) (d : Z)
    (use_quadr keep_lin_terms : bool) (lab : option (list float64_t))
  : outcome StreamingHashedSparseFeatures :=
  match dot_features with
  | None => Raise (AssertionFailed "dot_features")
  | Some feats =>
      let file := StreamingFileFromSparseFeatures feats lab in
      let is_labelled := negb (is_null lab) in
      let size := 1024 in
      let this := init this (Some file) is_labelled size d use_quadr keep_lin_terms in
      let this :=
        with_parser (Parser.set_free_vectors_on_destruct false (parser this)) this in
      Ok (with_seekable true this)
  end.

(** Constant queries. *)
Definition get_dim_feature_space (this : StreamingHashedSparseFeatures) : Z :=
  dim this.

Definition get_name (this : StreamingHashedSparseFeatures) : string :=
  "StreamingHashedSparseFeatures".

Definition get_num_vectors (this : StreamingHashedSparseFeatures) : Z := 1.

Definition get_feature_type (this : StreamingHashedSparseFeatures) : EFeatureType :=
  F_UINT.

Definition get_feature_class (this : StreamingHashedSparseFeatures) : EFeatureClass :=
  C_STREAMING_SPARSE.

Definition get_num_features (this : StreamingHashedSparseFeatures) : Z :=
  dim this.

Definition get_label (this : StreamingHashedSparseFeatures) : float64_t :=
  current_label this.

Definition get_vector (this : StreamingHashedSparseFeatures) : SGSparseVector ST :=
  current_vector this.

(** What [dot] sees of its argument, a pointer to the base class
    StreamingDotFeatures: the results of the two virtual queries, and the
    object the pointer denotes once cast to this very class, if it is one. *)
Record StreamingDotFeatures : Type := {
  df_feature_type : EFeatureType;
  df_name : string;
  df_hashed : option StreamingHashedSparseFeatures
}.

Definition upcast (other : StreamingHashedSparseFeatures) : StreamingDotFeatures :=
  {| df_feature_type := get_feature_type other;
     df_name := get_name other;
     df_hashed := Some other |}.

Definition dot (this : StreamingHashedSparseFeatures) (df : option StreamingDotFeatures)
  : outcome float32_t :=
  match df with
  | None => Raise (AssertionFailed "df")
  | Some d =>
      ASSERT (EFeatureType_eqb (df_feature_type d) (get_feature_type this))
             "df->get_feature_type() == get_feature_type()"
        (ASSERT (String.eqb (df_name d) (get_name this))
                "strcmp(df->get_name(),get_name())==0"
           match df_hashed d with
           | Some hdf =>
               Ok (ST_to_f32 (sparse_dot (current_vector this) (current_vector hdf)))
           | None => Undefined
           end)
  end.

(** The loop of [dense_dot]: [n] iterations are left, [i] is the loop
    variable. *)
Fixpoint dense_dot_loop (n : nat) (i : Z) (cv : SGSparseVector ST)
    (vec2 : list float32_t) (result : float32_t) : outcome float32_t :=
  match n with
  | O => Ok result
  | S n' =>
      match array_get (features cv) i with
      | None => Undefined
      | Some e =>
          match array_get vec2 (feat_index e) with
          | None => Undefined
          | Some x => dense_dot_loop n' (i + 1) cv vec2 (mul_add_assign result x (entry e))
          end
      end
  end.

(** [vec2] is the array the pointer points to, [vec2_len] the length the
    caller declares. *)
Definition dense_dot (this : StreamingHashedSparseFeatures)
    (vec2 : list float32_t) (vec2_len : Z) : outcome float32_t :=
  ASSERT (vec2_len =? dim this) "vec2_len == dim"
    (dense_dot_loop (Z.to_nat (num_feat_entries (current_vector this))) 0
                    (current_vector this) vec2 f32_zero).

Fixpoint add_to_dense_vec_loop (n : nat) (i : Z) (cv : SGSparseVector ST)
    (alpha : float32_t) (vec2 : list float32_t) : outcome (list float32_t) :=
  match n with
  | O => Ok vec2
  | S n' =>
      match array_get (features cv) i with
      | None => Undefined
      | Some e =>
          match array_get vec2 (feat_index e) with
          | None => Undefined
          | Some x =>
              add_to_dense_vec_loop n' (i + 1) cv alpha
                (list_set vec2 (Z.to_nat (feat_index e)) (mul_add_assign x alpha (entry e)))
          end
      end
  end.

(** Returns the array as the call leaves it. *)
Definition add_to_dense_vec (this : StreamingHashedSparseFeatures)
    (alpha : float32_t) (vec2 : list float32_t) (vec2_len : Z) (abs_val : bool)
  : outcome (list float32_t) :=
  ASSERT (vec2_len =? dim this) "vec2_len == dim"
    (let alpha := if abs_val then f32_abs alpha else alpha in
     add_to_dense_vec_loop (Z.to_nat (num_feat_entries (current_vector this))) 0
                           (current_vector this) alpha vec2).

(** The life cycle. *)
Definition start_parser (this : StreamingHashedSparseFeatures) :=
  if negb (Parser.is_running (parser this))
  then with_parser (Parser.start_parser (parser this)) this
  else this.

Definition end_parser (this : StreamingHashedSparseFeatures) :=
  with_parser (Parser.end_parser (parser this)) this.

(** [tmp] is a local variable; what is assigned to it after the hashing is
    lost with it. *)
Definition get_next_example (this : StreamingHashedSparseFeatures)
  : bool * StreamingHashedSparseFeatures :=
  let tmp := empty_vector in
  match Parser.get_next_example (parser this) tmp (current_label this) with
  | (ok, tmp, label, p) =>
      let this := with_current_label label (with_parser p this) in
      if ok
      then (true,
            with_current_vector
              (hash_vector tmp (dim this) (use_quadratic this) (keep_linear_terms this))
              this)
      else (false, this)
  end.

Definition release_example (this : StreamingHashedSparseFeatures) :=
  with_parser (Parser.finalize_example (parser this)) this.

(** Sequences of life-cycle calls. *)
Inductive call : Type := Start | Advance | Release | Stop.

Definition run_call (this : StreamingHashedSparseFeatures) (c : call) :=
  match c with
  | Start => start_parser this
  | Advance => snd (get_next_example this)
  | Release => release_example this
  | Stop => end_parser this
  end.

Definition run (calls : list call) (this : StreamingHashedSparseFeatures) :=
  fold_left run_call calls this.

Inductive constructed : StreamingHashedSparseFeatures -> Prop :=
| constructed_default (o : StreamingHashedSparseFeatures) :
    members_constructed o -> constructed (new_default o)
| constructed_from_file (o : StreamingHashedSparseFeatures) file is_labelled size d uq kl :
    members_constructed o ->
    constructed (new_from_file o file is_labelled size d uq kl)
| constructed_from_features (o : StreamingHashedSparseFeatures) feats d uq kl lab s :
    members_constructed o ->
    new_from_features o feats d uq kl lab = Ok s ->
    constructed s.

Definition reachable (s : StreamingHashedSparseFeatures) : Prop :=
  exists s0 calls, constructed s0 /\ s = run calls s0.

(** ** The vector algebra as the specification words it *)

(** The sum, over the entries (idx, value) of [cv] in order, of
    [vec2[idx] * value]. *)
Definition sum_of_products (cv : SGSparseVector ST) (vec2 : list float32_t) : float32_t :=
  fold_left
    (fun acc e =>
       wide_to_f32
         (wide_add (f32_to_wide acc)
            (wide_mul (f32_to_wide (nth (Z.to_nat (feat_index e)) vec2 f32_zero))
                      (ST_to_wide (entry e)))))
    (features cv) f32_zero.

(** [vec2] with [scale * value (e)] added to the slot of each entry [e] of
    [cv], in order. *)
Definition accumulate (value : SGSparseVectorEntry ST -> ST) (scale : float32_t)
    (cv : SGSparseVector ST) (vec2 : list float32_t) : list float32_t :=
  fold_left
    (fun v e =>
       list_set v (Z.to_nat (feat_index e))
         (mul_add_assign (nth (Z.to_nat (feat_index e)) v f32_zero) scale (value e)))
    (features cv) vec2.

(** [vec2] after [vec2[idx] += scale * value] for each entry (idx, value) of
    [cv], in order, in the arithmetic itself. *)
Definition scaled_entries_added (scale : float32_t) (cv : SGSparseVector ST)
    (vec2 : list float32_t) : list float32_t :=
  fold_left
    (fun v e =>
       list_set v (Z.to_nat (feat_index e))
         (wide_to_f32
            (wide_add (f32_to_wide (nth (Z.to_nat (feat_index e)) v f32_zero))
               (wide_mul (f32_to_wide scale) (ST_to_wide (entry e))))))
    (features cv) vec2.

End Pipeline.

Arguments StreamingHashedSparseFeatures : clear implicits.
Arguments StreamingDotFeatures : clear implicits.

(** A pipeline of another template instantiation behind a StreamingDotFeatures
    pointer: the virtual queries answer for its own class, which is not the
    class [dot] casts to. *)
Definition upcast_foreign {ST ST' float64_t float64_t' P P' : Type}
    (other : StreamingHashedSparseFeatures ST' float64_t' P')
  : StreamingDotFeatures ST float64_t P :=
  {| df_feature_type := get_feature_type other;
     df_name := get_name other;
     df_hashed := None |}.


(** ** A concrete instantiation: [ST = float32_t], IEEE binary32 arithmetic

    Used to run the definitions on concrete inputs. *)

Module Float32.

Definition prec : Z := 24.
Definition emax : Z := 128.

Definition of_Z (z : Z) : spec_float := binary_normalize prec emax z 0 false.

#[export] Instance arith : Arith spec_float spec_float spec_float := {|
  f32_zero := S754_zero false;
  f32_abs := SFabs;
  f32_to_wide := fun x => x;
  ST_to_wide := fun x => x;
  wide_to_f32 := fun x => x;
  wide_add := SFadd prec emax;
  wide_mul := SFmul prec emax;
  ST_zero := S754_zero false;
  ST_add := SFadd prec emax;
  ST_mul := SFmul prec emax;
  ST_abs := SFabs;
  ST_to_f32 := fun x => x
|}.

(** Sample hash functions: the index itself, and a symmetric pairing. *)
#[export] Instance hashing : Hashing := {|
  hash := fun i => i;
  hash_pair := fun i j => i * j + i + j
|}.

(** Modelled from the spec: a sample producer under the producer contract
    (the parser class is missing from the sources).  It holds the examples
    still to hand out, each with its label if it has one; it hands out the
    first and leaves the label it is given alone when the example has none
    or when no example is left. *)
Record QueueParser : Type := {
  pending : list (SGSparseVector spec_float * option spec_float);
  running : bool;
  free_vectors_on_destruct : bool;
  free_vector_after_release : bool;
  finalized : nat
}.

Fixpoint attach_labels (feats : list (SGSparseVector spec_float))
    (lab : option (list spec_float))
  : list (SGSparseVector spec_float * option spec_float) :=
  match feats with
  | [] => []
  | v :: feats' =>
      match lab with
      | Some (l :: lab') => (v, Some l) :: attach_labels feats' (Some lab')
      | _ => (v, None) :: attach_labels feats' None
      end
  end.

Definition queue_init (file : StreamingFile spec_float spec_float)
    (is_labelled : bool) (size : Z) (p : QueueParser) : QueueParser :=
  {| pending :=
       match file with
       | ExternalFile _ => pending p
       | StreamingFileFromSparseFeatures feats lab =>
           attach_labels feats (if is_labelled then lab else None)
       end;
     running := running p;
     free_vectors_on_destruct := free_vectors_on_destruct p;
     free_vector_after_release := free_vector_after_release p;
     finalized := finalized p |}.

Definition queue_get_next_example (p : QueueParser) (v : SGSparseVector spec_float)
    (l : spec_float) : bool * SGSparseVector spec_float * spec_float * QueueParser :=
  match pending p with
  | [] => (false, v, l, p)
  | (x, xl) :: rest =>
      (true, x, match xl with Some l' => l' | None => l end,
       {| pending := rest; running := running p;
          free_vectors_on_destruct := free_vectors_on_destruct p;
          free_vector_after_release := free_vector_after_release p;
          finalized := finalized p |})
  end.

#[export] Instance queue_ops : Parser.Ops spec_float spec_float QueueParser := {|
  Parser.init := queue_init;
  Parser.set_read_vector := fun p => p;
  Parser.set_read_vector_and_label := fun p => p;
  Parser.set_free_vector_after_release := fun b p =>
    {| pending := pending p; running := running p;
       free_vectors_on_destruct := free_vectors_on_destruct p;
       free_vector_after_release := b; finalized := finalized p |};
  Parser.set_free_vectors_on_destruct := fun b p =>
    {| pending := pending p; running := running p;
       free_vectors_on_destruct := b;
       free_vector_after_release := free_vector_after_release p;
       finalized := finalized p |};
  Parser.is_running := running;
  Parser.start_parser := fun p =>
    {| pending := pending p; running := true;
       free_vectors_on_destruct := free_vectors_on_destruct p;
       free_vector_after_release := free_vector_after_release p;
       finalized := finalized p |};
  Parser.end_parser := fun p =>
    {| pending := pending p; running := false;
       free_vectors_on_destruct := free_vectors_on_destruct p;
       free_vector_after_release := free_vector_after_release p;
       finalized := finalized p |};
  Parser.get_next_example := queue_get_next_example;
  Parser.finalize_example := fun p =>
    {| pending := pending p; running := running p;
       free_vectors_on_destruct := free_vectors_on_destruct p;
       free_vector_after_release := free_vector_after_release p;
       finalized := S (finalized p) |}
|}.

Definition Pipeline : Type := StreamingHashedSparseFeatures spec_float spec_float QueueParser.

(** The memory of an object before a constructor body runs. *)
Definition blank : Pipeline :=
  {| dim := 0; use_quadratic := false; keep_linear_terms := false;
     has_labels := false; seekable := false; working_file := None;
     parser := {| pending := []; running := false; free_vectors_on_destruct := true;
                  free_vector_after_release := true; finalized := 0 |};
     current_vector := empty_vector; current_label := S754_zero false |}.

Definition sv (l : list (Z * Z)) : SGSparseVector spec_float :=
  {| num_feat_entries := Z.of_nat (List.length l);
     features := map (fun p => {| feat_index := fst p; entry := of_Z (snd p) |}) l |}.

Definition unwrap (r : outcome Pipeline) : Pipeline :=
  match r with
  | Ok s => s
  | _ => blank
  end.

(** A pipeline over a batch of one example, [{(3, -2.0)}] with label 1.0,
    hashed to one dimension: as constructed, and after start and one
    successful advance. *)
Definition sample_batch : SparseFeatures spec_float := [sv [(3, -2)]].

Definition sample_start : Pipeline :=
  unwrap (new_from_features blank (Some sample_batch) 1 false true (Some [of_Z 1])).

Definition sample_state : Pipeline := run [Start; Advance] sample_start.

(** Two pipelines over the batch [{(3, 2.0), (7, 5.0)}], one hashed to 4
    dimensions and one to 8, each after start and one successful advance. *)
Definition pair_batch : SparseFeatures spec_float := [sv [(3, 2); (7, 5)]].

Definition narrow : Pipeline :=
  run [Start; Advance]
      (unwrap (new_from_features blank (Some pair_batch) 4 false true None)).

Definition broad : Pipeline :=
  run [Start; Advance]
      (unwrap (new_from_features blank (Some pair_batch) 8 false true None)).

(** [add_to_dense_vec] with [abs_val] true as the specification words it:
    [alpha * abs(value)] is added for each entry. *)
Definition accumulate_abs_value (alpha : spec_float) (cv : SGSparseVector spec_float)
    (vec2 : list spec_float) : list spec_float :=
  accumulate (fun e => ST_abs (entry e)) alpha cv vec2.

End Float32.

(** ** Further sample pipelines *)

Module Float32Samples.
Import Float32.

(** The dense array [1.0; 2.0; ...; 8.0]. *)
Definition ramp : list spec_float := map of_Z [1; 2; 3; 4; 5; 6; 7; 8].

Definition broad_start : Pipeline :=
  unwrap (new_from_features blank (Some pair_batch) 8 false true None).



(** A second sample producer.  [get_next_example] receives [current_label]
    by reference on every call; this producer is the queue above, except that
    with no example left it sets the label it was handed to 0.0 before it
    answers false. *)
Record ResettingParser : Type := {
  queue : QueueParser
}.

Definition resetting_get_next_example (p : ResettingParser)
    (v : SGSparseVector spec_float) (l : spec_float)
  : bool * SGSparseVector spec_float * spec_float * ResettingParser :=
  match pending (queue p) with
  | [] => (false, v, S754_zero false, p)
  | _ :: _ =>
      match queue_get_next_example (queue p) v l with
      | (ok, x, l', q) => (ok, x, l', {| queue := q |})
      end
  end.

#[export] Instance resetting_ops : Parser.Ops spec_float spec_float ResettingParser := {|
  Parser.init := fun f b n p => {| queue := queue_init f b n (queue p) |};
  Parser.set_read_vector := fun p => p;
  Parser.set_read_vector_and_label := fun p => p;
  Parser.set_free_vector_after_release := fun b p =>
    {| queue := Parser.set_free_vector_after_release b (queue p) |};
  Parser.set_free_vectors_on_destruct := fun b p =>
    {| queue := Parser.set_free_vectors_on_destruct b (queue p) |};
  Parser.is_running := fun p => running (queue p);
  Parser.start_parser := fun p => {| queue := Parser.start_parser (queue p) |};
  Parser.end_parser := fun p => {| queue := Parser.end_parser (queue p) |};
  Parser.get_next_example := resetting_get_next_example;
  Parser.finalize_example := fun p => {| queue := Parser.finalize_example (queue p) |}
|}.





End Float32Samples.

(** * Properties *)

(** ** The hash transform keeps indices below the target dimension *)

Section TransformFacts.
Context {ST float32_t wide : Type} {A : Arith ST float32_t wide} {H : Hashing}.

Lemma merge_entry_index_in (d : Z) (e : SGSparseVectorEntry ST) :
  forall acc, index_in d e -> Forall (index_in d) acc ->
              Forall (index_in d) (merge_entry e acc).
Proof.
  induction acc as [|a acc IH]; intros He Hacc; simpl.
  - constructor; [exact He | constructor].
  - inversion Hacc as [|? ? Ha Hrest]; subst.
    destruct (feat_index a =? feat_index e).
    + constructor; [exact Ha | exact Hrest].
    + constructor; [exact Ha | apply IH; assumption].
Qed.

Lemma compact_index_in (d : Z) (terms : list (SGSparseVectorEntry ST)) :
  Forall (index_in d) terms -> Forall (index_in d) (compact terms).
Proof.
  unfold compact.
  assert (G : forall acc, Forall (index_in d) acc -> Forall (index_in d) terms ->
                          Forall (index_in d) (fold_left (fun acc e => merge_entry e acc) terms acc)).
  { induction terms as [|t terms IH]; intros acc Hacc Hterms; simpl.
    - exact Hacc.
    - inversion Hterms; subst. apply IH; [apply merge_entry_index_in|]; assumption. }
  intro Hterms. apply G; [constructor | exact Hterms].
Qed.

Lemma linear_terms_index_in (d : Z) (raw : list (SGSparseVectorEntry ST)) :
  0 < d -> Forall (index_in d) (linear_terms raw d).
Proof.
  intro Hd. unfold linear_terms. apply Forall_forall. intros x Hx.
  apply in_map_iff in Hx. destruct Hx as [e [<- _]].
  unfold index_in; simpl. apply Z.mod_pos_bound; exact Hd.
Qed.

Lemma quadratic_terms_index_in (d : Z) (raw : list (SGSparseVectorEntry ST)) :
  0 < d -> Forall (index_in d) (quadratic_terms raw d).
Proof.
  intro Hd. induction raw as [|e rest IH].
  - constructor.
  - cbn [quadratic_terms]. apply Forall_app. split; [|exact IH].
    apply Forall_forall. intros x Hx.
    apply in_map_iff in Hx. destruct Hx as [e' [<- _]].
    unfold index_in; simpl. apply Z.mod_pos_bound; exact Hd.
Qed.

Lemma hash_vector_indices_below (vec : SGSparseVector ST) (d : Z) (uq kl : bool) :
  0 < d -> indices_below d (hash_vector vec d uq kl).
Proof.
  intro Hd. unfold indices_below, hash_vector; cbn [features].
  apply (compact_index_in (d := d)). apply Forall_app. split.
  - destruct (negb uq || kl); [apply linear_terms_index_in; exact Hd | constructor].
  - destruct uq; [apply quadratic_terms_index_in; exact Hd | constructor].
Qed.

Lemma hash_vector_well_formed (vec : SGSparseVector ST) (d : Z) (uq kl : bool) :
  well_formed (hash_vector vec d uq kl).
Proof. reflexivity. Qed.

End TransformFacts.

(** ** Construction and life cycle *)

Section PipelineFacts.
Context {ST float32_t wide float64_t P : Type}.
Context {A : Arith ST float32_t wide} {H : Hashing} {PO : Parser.Ops ST float64_t P}.

Local Abbreviation Pipeline := (StreamingHashedSparseFeatures ST float64_t P).

Lemma init_dim (o : Pipeline) file is_labelled size d uq kl :
  dim (init o file is_labelled size d uq kl) = d.
Proof. destruct file; reflexivity. Qed.

Lemma init_current_vector (o : Pipeline) file is_labelled size d uq kl :
  current_vector (init o file is_labelled size d uq kl) = current_vector o.
Proof. destruct file; reflexivity. Qed.

Lemma constructed_current_vector (s : Pipeline) :
  constructed s -> current_vector s = empty_vector.
Proof.
  intros [o [_ Ho] | o file is_labelled size d uq kl [_ Ho]
          | o feats d uq kl lab s' [_ Ho] Hs].
  - unfold new_default. rewrite init_current_vector. exact Ho.
  - unfold new_from_file. rewrite init_current_vector. exact Ho.
  - unfold new_from_features in Hs. destruct feats as [f|]; [|discriminate].
    injection Hs as <-. cbn [with_seekable with_parser current_vector].
    rewrite init_current_vector. exact Ho.
Qed.

Lemma get_next_example_dim (s : Pipeline) :
  dim (snd (get_next_example s)) = dim s.
Proof.
  unfold get_next_example.
  destruct (Parser.get_next_example (parser s) empty_vector (current_label s))
    as [[[ok tmp] l] p].
  destruct ok; reflexivity.
Qed.

Lemma run_call_dim (s : Pipeline) (c : call) : dim (run_call s c) = dim s.
Proof.
  destruct c; cbn [run_call].
  - unfold start_parser. destruct (negb (Parser.is_running (parser s))); reflexivity.
  - apply get_next_example_dim.
  - reflexivity.
  - reflexivity.
Qed.

Lemma run_dim (calls : list call) :
  forall s : Pipeline, dim (run calls s) = dim s.
Proof.
  induction calls as [|c calls IH]; intro s; cbn [run fold_left].
  - reflexivity.
  - change (dim (run calls (run_call s c)) = dim s).
    rewrite IH. apply run_call_dim.
Qed.

Lemma get_next_example_indices_below (s : Pipeline) :
  0 < dim s -> indices_below (dim s) (current_vector s) ->
  indices_below (dim s) (current_vector (snd (get_next_example s))).
Proof.
  intros Hd Hs. unfold get_next_example.
  destruct (Parser.get_next_example (parser s) empty_vector (current_label s))
    as [[[ok tmp] l] p].
  destruct ok; cbn [snd with_current_vector with_current_label with_parser
                     current_vector dim use_quadratic keep_linear_terms].
  - apply hash_vector_indices_below. exact Hd.
  - exact Hs.
Qed.

Lemma run_call_indices_below (s : Pipeline) (c : call) :
  0 < dim s -> indices_below (dim s) (current_vector s) ->
  indices_below (dim s) (current_vector (run_call s c)).
Proof.
  intros Hd Hs. destruct c; cbn [run_call].
  - unfold start_parser. destruct (negb (Parser.is_running (parser s))); exact Hs.
  - apply get_next_example_indices_below; assumption.
  - exact Hs.
  - exact Hs.
Qed.

Lemma run_indices_below (calls : list call) :
  forall s : Pipeline,
    0 < dim s -> indices_below (dim s) (current_vector s) ->
    indices_below (dim s) (current_vector (run calls s)).
Proof.
  induction calls as [|c calls IH]; intros s Hd Hs; cbn [run fold_left].
  - exact Hs.
  - change (indices_below (dim s) (current_vector (run calls (run_call s c)))).
    rewrite <- (run_call_dim s c). apply IH.
    + rewrite run_call_dim. exact Hd.
    + rewrite run_call_dim. apply run_call_indices_below; assumption.
Qed.


(** C7.  [get_num_vectors] returns 1 for every pipeline, in whatever state
    it is, and so after any sequence of life-cycle calls. *)
Theorem get_num_vectors_is_one (this : Pipeline) (calls : list call) :
  get_num_vectors this = 1 /\ get_num_vectors (run calls this) = 1.
Proof. split; reflexivity. Qed.


(** C10.  [release_example] changes the parser only, by [finalize_example]:
    the current vector, the current label and the configuration members are
    as before, and so are the results of [get_vector] and [get_label]. *)
Theorem release_example_frame (this : Pipeline) :
  parser (release_example this) = Parser.finalize_example (parser this)
  /\ current_vector (release_example this) = current_vector this
  /\ current_label (release_example this) = current_label this
  /\ dim (release_example this) = dim this
  /\ use_quadratic (release_example this) = use_quadratic this
  /\ keep_linear_terms (release_example this) = keep_linear_terms this
  /\ has_labels (release_example this) = has_labels this
  /\ seekable (release_example this) = seekable this
  /\ working_file (release_example this) = working_file this
  /\ get_vector (release_example this) = get_vector this
  /\ get_label (release_example this) = get_label this.
Proof. repeat split. Qed.

(** C8.  A pipeline constructed from an in-memory batch is seekable, has
    labels exactly when a label array is given, and its parser was last told
    not to free the vectors on destruct; construction from a file with a
    source sets [seekable] to false, and the other constructions leave it as
    it is: no other path assigns true. *)
Theorem new_from_features_seekable (o : Pipeline) feats d uq kl lab (s : Pipeline) :
  new_from_features o feats d uq kl lab = Ok s ->
  seekable s = true
  /\ (has_labels s = true <-> lab <> None)
  /\ (exists batch,
         feats = Some batch
         /\ parser s =
            Parser.set_free_vectors_on_destruct false
              (parser (init o (Some (StreamingFileFromSparseFeatures batch lab))
                            (negb (is_null lab)) 1024 d uq kl)))
  /\ (forall (o' : Pipeline) f il size d' uq' kl',
         seekable (new_from_file o' (Some f) il size d' uq' kl') = false)
  /\ (forall (o' : Pipeline) il size d' uq' kl',
         seekable (new_from_file o' None il size d' uq' kl') = seekable o')
  /\ (forall o' : Pipeline, seekable (new_default o') = seekable o').
Proof.
  intro Hs. unfold new_from_features in Hs.
  destruct feats as [batch|]; [|discriminate].
  injection Hs as <-.
  split; [reflexivity|].
  split.
  { cbn. destruct lab; cbn; split; intro Hl; congruence. }
  split; [exists batch; split; reflexivity|].
  repeat split.
Qed.

(** C4, as the code has it.  No constructor checks the target dimension:
    [init] stores [d] in [dim] whatever its sign.  Construction from a file
    always yields a pipeline; construction from a batch fails only when the
    batch pointer is null; the default constructor yields target dimension
    0. *)
Theorem init_stores_any_dimension (o : Pipeline) file is_labelled size d uq kl batch lab :
  dim (new_from_file o file is_labelled size d uq kl) = d
  /\ get_dim_feature_space (new_from_file o file is_labelled size d uq kl) = d
  /\ dim (new_default o) = 0
  /\ (exists s, new_from_features o (Some batch) d uq kl lab = Ok s /\ dim s = d)
  /\ new_from_features o None d uq kl lab = Raise (AssertionFailed "dot_features").
Proof.
  split; [apply init_dim|].
  split; [apply init_dim|].
  split; [apply init_dim|].
  split; [|reflexivity].
  eexists; split; [reflexivity|]. reflexivity.
Qed.

Lemma EFeatureType_eqb_F_UINT (t : EFeatureType) :
  EFeatureType_eqb t F_UINT = true <-> t = F_UINT.
Proof. destruct t; cbn; split; congruence. Qed.

(** C1, as the code has it.  [dot] raises exactly when its argument is null,
    or answers a feature type other than F_UINT, or a name other than this
    class's; the target dimensions are not compared: for any two pipelines
    of one instantiation it returns the sparse dot product of their current
    vectors. *)
Theorem dot_checks_tags_only (this other : Pipeline)
    (df : option (StreamingDotFeatures ST float64_t P)) :
  dot this (Some (upcast other))
  = Ok (ST_to_f32 (sparse_dot (current_vector this) (current_vector other)))
  /\ (raises (dot this df) = true <->
      df = None
      \/ exists d, df = Some d
                   /\ (df_feature_type d <> F_UINT
                       \/ df_name d <> "StreamingHashedSparseFeatures"%string)).
Proof.
  split; [reflexivity|].
  destruct df as [d|]; cbn [dot].
  - unfold ASSERT, get_feature_type, get_name.
    destruct (EFeatureType_eqb (df_feature_type d) F_UINT) eqn:Et.
    + apply EFeatureType_eqb_F_UINT in Et.
      destruct (String.eqb_spec (df_name d) "StreamingHashedSparseFeatures") as [En|En].
      * split.
        -- destruct (df_hashed d); cbn; discriminate.
        -- intros [Hn|[d' [Hd [Hf|Hf]]]]; [discriminate| |];
             injection Hd as <-; contradiction.
      * split; [|reflexivity].
        intros _. right. exists d. split; [reflexivity|]. right. exact En.
    + split; [|reflexivity].
      intros _. right. exists d. split; [reflexivity|]. left.
      intro Hf. apply EFeatureType_eqb_F_UINT in Hf. congruence.
  - split; [intros _; left; reflexivity | reflexivity].
Qed.

(** ** The vector algebra *)

Lemma array_get_middle {X : Type} (done rest : list X) (e : X) :
  array_get (done ++ e :: rest) (Z.of_nat (List.length done)) = Some e.
Proof.
  unfold array_get.
  destruct (Z.ltb_spec (Z.of_nat (List.length done)) 0) as [Hneg|_]; [lia|].
  rewrite Nat2Z.id. rewrite nth_error_app2 by lia.
  rewrite Nat.sub_diag. reflexivity.
Qed.

Lemma array_get_in_range {X : Type} (a : list X) (i : Z) (default : X) :
  0 <= i < Z.of_nat (List.length a) ->
  array_get a i = Some (nth (Z.to_nat i) a default).
Proof.
  intros Hi. unfold array_get.
  destruct (Z.ltb_spec i 0) as [Hneg|_]; [lia|].
  apply nth_error_nth'. lia.
Qed.

Lemma list_set_length {X : Type} (a : list X) :
  forall (n : nat) (x : X), List.length (list_set a n x) = List.length a.
Proof.
  induction a as [|h t IH]; intros n x; destruct n; cbn; try reflexivity.
  rewrite IH. reflexivity.
Qed.

Lemma dense_dot_loop_fold (cv : SGSparseVector ST) (vec2 : list float32_t) :
  forall (rest done : list (SGSparseVectorEntry ST)) (acc : float32_t),
    features cv = done ++ rest ->
    Forall (index_in (Z.of_nat (List.length vec2))) rest ->
    dense_dot_loop (List.length rest) (Z.of_nat (List.length done)) cv vec2 acc
    = Ok (fold_left
            (fun acc e =>
               mul_add_assign acc (nth (Z.to_nat (feat_index e)) vec2 f32_zero) (entry e))
            rest acc).
Proof.
  induction rest as [|e rest IH]; intros done acc Hcv Hin; cbn [List.length dense_dot_loop fold_left].
  - reflexivity.
  - inversion Hin as [|? ? He Hrest]; subst.
    rewrite Hcv, array_get_middle.
    rewrite (array_get_in_range vec2 f32_zero He).
    replace (Z.of_nat (List.length done) + 1) with (Z.of_nat (List.length (done ++ [e])))
      by (rewrite length_app; cbn; lia).
    apply IH; [|exact Hrest].
    rewrite Hcv, <- app_assoc. reflexivity.
Qed.

Lemma add_to_dense_vec_loop_fold (cv : SGSparseVector ST) (alpha : float32_t) :
  forall (rest done : list (SGSparseVectorEntry ST)) (vec2 : list float32_t),
    features cv = done ++ rest ->
    Forall (index_in (Z.of_nat (List.length vec2))) rest ->
    add_to_dense_vec_loop (List.length rest) (Z.of_nat (List.length done)) cv alpha vec2
    = Ok (fold_left
            (fun v e =>
               list_set v (Z.to_nat (feat_index e))
                 (mul_add_assign (nth (Z.to_nat (feat_index e)) v f32_zero) alpha (entry e)))
            rest vec2).
Proof.
  induction rest as [|e rest IH]; intros done vec2 Hcv Hin;
    cbn [List.length add_to_dense_vec_loop fold_left].
  - reflexivity.
  - inversion Hin as [|? ? He Hrest]; subst.
    rewrite Hcv, array_get_middle.
    rewrite (array_get_in_range vec2 f32_zero He).
    replace (Z.of_nat (List.length done) + 1) with (Z.of_nat (List.length (done ++ [e])))
      by (rewrite length_app; cbn; lia).
    apply IH.
    + rewrite Hcv, <- app_assoc. reflexivity.
    + rewrite list_set_length. exact Hrest.
Qed.

(** C5.  With a declared length other than the target dimension
    [dense_dot] raises the assertion's exception, whatever the dense array
    holds (it is not read, and the function returns no array); with the
    declared length equal to the target dimension, on a hashed current
    vector and an array of the declared length, it returns the sum over the
    current vector's entries (idx, value) of [vec2[idx] * value]. *)
Theorem dense_dot_spec (this : Pipeline) (vec2 : list float32_t) (vec2_len : Z) :
  (vec2_len <> dim this ->
   forall vec2' : list float32_t,
     dense_dot this vec2' vec2_len = Raise (AssertionFailed "vec2_len == dim"))
  /\ (vec2_len = dim this ->
      well_formed (current_vector this) ->
      indices_below (dim this) (current_vector this) ->
      Z.of_nat (List.length vec2) = vec2_len ->
      dense_dot this vec2 vec2_len = Ok (sum_of_products (current_vector this) vec2)).
Proof.
  split.
  - intros Hne vec2'. unfold dense_dot, ASSERT.
    destruct (Z.eqb_spec vec2_len (dim this)); [contradiction | reflexivity].
  - intros Heq Hwf Hin Hlen. unfold dense_dot, ASSERT.
    rewrite (proj2 (Z.eqb_eq _ _) Heq).
    rewrite Hwf, Nat2Z.id.
    apply dense_dot_loop_fold with (done := []).
    + reflexivity.
    + rewrite Hlen, Heq. exact Hin.
Qed.

(** C2, as the code has it.  With [abs_val] true, on a hashed current vector
    and an array of length the target dimension, [add_to_dense_vec] adds
    [abs(alpha) * value] to [vec2[idx]] for each entry (idx, value): the
    absolute value is taken of [alpha], and the call equals the one with
    [abs(alpha)] and [abs_val] false. *)
Theorem add_to_dense_vec_abs_alpha (this : Pipeline) (alpha : float32_t)
    (vec2 : list float32_t) (vec2_len : Z) :
  vec2_len = dim this ->
  well_formed (current_vector this) ->
  indices_below (dim this) (current_vector this) ->
  Z.of_nat (List.length vec2) = vec2_len ->
  add_to_dense_vec this alpha vec2 vec2_len true
  = Ok (accumulate (@entry ST) (f32_abs alpha) (current_vector this) vec2)
  /\ add_to_dense_vec this alpha vec2 vec2_len true
     = add_to_dense_vec this (f32_abs alpha) vec2 vec2_len false.
Proof.
  intros Heq Hwf Hin Hlen. split; [|reflexivity].
  unfold add_to_dense_vec, ASSERT.
  rewrite (proj2 (Z.eqb_eq _ _) Heq).
  rewrite Hwf, Nat2Z.id.
  apply add_to_dense_vec_loop_fold with (done := []).
  - reflexivity.
  - rewrite Hlen, Heq. exact Hin.
Qed.

End PipelineFacts.

(** ** Across template instantiations *)

(** C9.  [get_feature_type] returns F_UINT in every instantiation of the
    class; so, for two pipelines of any two instantiations, the feature-type
    comparison of [dot] succeeds and [dot] raises no exception. *)
Theorem get_feature_type_is_F_UINT
    {ST float32_t wide float64_t P ST' float64_t' P' : Type}
    {A : Arith ST float32_t wide}
    (this : StreamingHashedSparseFeatures ST float64_t P)
    (other : StreamingHashedSparseFeatures ST' float64_t' P') :
  get_feature_type this = F_UINT
  /\ get_feature_type other = F_UINT
  /\ EFeatureType_eqb
       (df_feature_type (upcast_foreign other : StreamingDotFeatures ST float64_t P))
       (get_feature_type this) = true
  /\ raises (dot this (Some (upcast_foreign other))) = false.
Proof. repeat split. Qed.

(** ** The definitions at work on binary32 values *)

Module Float32Facts.
Import Float32 Float32Samples.

Lemma sample_start_constructed : constructed sample_start.
Proof.
  apply constructed_from_features
    with (o := blank) (feats := Some sample_batch) (d := 1) (uq := false) (kl := true)
         (lab := Some [of_Z 1]).
  - split; reflexivity.
  - reflexivity.
Qed.

Lemma sample_state_hashed :
  well_formed (current_vector sample_state)
  /\ indices_below (dim sample_state) (current_vector sample_state).
Proof.
  split; [reflexivity|].
  constructor; [|constructor]. unfold index_in. cbn. lia.
Qed.

Example sample_state_current_vector :
  current_vector sample_state = {| num_feat_entries := 1;
                                   features := [{| feat_index := 0; entry := of_Z (-2) |}] |}
  /\ current_label sample_state = of_Z 1
  /\ dim sample_state = 1.
Proof. repeat split. Qed.

Example hash_vector_quadratic :
  hash_vector (sv [(3, 2); (7, 5)]) 4 true true
  = {| num_feat_entries := 1; features := [{| feat_index := 3; entry := of_Z 46 |}] |}.
Proof. reflexivity. Qed.

Example hash_vector_linear :
  hash_vector (sv [(3, 2); (7, 5)]) 8 false true
  = {| num_feat_entries := 2;
       features := [{| feat_index := 3; entry := of_Z 2 |};
                    {| feat_index := 7; entry := of_Z 5 |}] |}.
Proof. reflexivity. Qed.



(** Construction of the sample pipeline from its batch, with labels. *)
Lemma new_from_features_seekable_witness :
  seekable sample_start = true
  /\ has_labels sample_start = true
  /\ free_vectors_on_destruct (parser sample_start) = false
  /\ seekable (new_from_file blank (Some (ExternalFile 0)) true 1024 1 false true) = false.
Proof.
  assert (E : new_from_features blank (Some sample_batch) 1 false true (Some [of_Z 1])
              = Ok sample_start) by reflexivity.
  destruct (new_from_features_seekable _ _ _ _ _ _ E) as [Hs [Hl [[batch [_ Hp]] [Hf _]]]].
  split; [exact Hs|].
  split; [apply Hl; discriminate|].
  split; [rewrite Hp; reflexivity|].
  apply Hf.
Defined.

(** [dense_dot] on [broad], which holds {(3, 2.0), (7, 5.0)} in 8
    dimensions, against [1.0; ...; 8.0]: a declared length of 7 is refused,
    a declared length of 8 gives 4.0 * 2.0 + 8.0 * 5.0 = 48.0. *)
Lemma dense_dot_spec_witness :
  dense_dot broad Float32Samples.ramp 7 = Raise (AssertionFailed "vec2_len == dim")
  /\ dense_dot broad Float32Samples.ramp 8 = Ok (of_Z 48).
Proof.
  destruct (dense_dot_spec broad Float32Samples.ramp 7) as [Hrefused _].
  destruct (dense_dot_spec broad Float32Samples.ramp 8) as [_ Hsum].
  split.
  - apply Hrefused. vm_compute. discriminate.
  - rewrite Hsum.
    + reflexivity.
    + reflexivity.
    + reflexivity.
    + repeat constructor; unfold index_in; cbn; lia.
    + reflexivity.
Defined.

(** [add_to_dense_vec] with [abs_val] true on the sample pipeline and
    alpha = -3.0: abs(-3.0) * -2.0 = -6.0 is added. *)
Lemma add_to_dense_vec_abs_alpha_witness :
  add_to_dense_vec sample_state (of_Z (-3)) [of_Z 0] 1 true = Ok [of_Z (-6)]
  /\ add_to_dense_vec sample_state (of_Z (-3)) [of_Z 0] 1 true
     = add_to_dense_vec sample_state (of_Z 3) [of_Z 0] 1 false.
Proof.
  destruct (add_to_dense_vec_abs_alpha sample_state (of_Z (-3)) [of_Z 0] (vec2_len := 1))
    as [Hsum Hsame];
    [reflexivity | apply sample_state_hashed | apply sample_state_hashed | reflexivity |].
  split; [rewrite Hsum; reflexivity | exact Hsame].
Defined.

(** C2 fails as stated.  On the sample pipeline, whose current vector is
    {(0, -2.0)}, with alpha = 1.0, [abs_val] true and the dense vector
    [0.0] of the target dimension's length, the specification's
    [alpha * abs(value)] gives [2.0]; the code gives [-2.0]. *)
Lemma add_to_dense_vec_abs_value_counterexample :
  dim sample_state = 1
  /\ well_formed (current_vector sample_state)
  /\ indices_below (dim sample_state) (current_vector sample_state)
  /\ accumulate_abs_value (of_Z 1) (current_vector sample_state) [of_Z 0] = [of_Z 2]
  /\ add_to_dense_vec sample_state (of_Z 1) [of_Z 0] 1 true = Ok [of_Z (-2)]
  /\ add_to_dense_vec sample_state (of_Z 1) [of_Z 0] 1 true
     <> Ok (accumulate_abs_value (of_Z 1) (current_vector sample_state) [of_Z 0]).
Proof.
  split; [reflexivity|].
  split; [apply sample_state_hashed|].
  split; [apply sample_state_hashed|].
  split; [reflexivity|].
  split; [reflexivity|].
  vm_compute. discriminate.
Qed.

(** C1 fails as stated.  [narrow] has target dimension 4 and [broad] has 8;
    [dot] between them raises nothing and returns a number, 14.0. *)
Lemma dot_mismatched_dimensions_counterexample :
  dim narrow = 4
  /\ dim broad = 8
  /\ constructed (unwrap (new_from_features blank (Some pair_batch) 4 false true None))
  /\ constructed (unwrap (new_from_features blank (Some pair_batch) 8 false true None))
  /\ dot narrow (Some (upcast broad)) = Ok (of_Z 14)
  /\ raises (dot narrow (Some (upcast broad))) = false.
Proof.
  split; [reflexivity|]. split; [reflexivity|].
  split.
  { apply constructed_from_features
      with (o := blank) (feats := Some pair_batch) (d := 4) (uq := false) (kl := true)
           (lab := None); [split; reflexivity | reflexivity]. }
  split.
  { apply constructed_from_features
      with (o := blank) (feats := Some pair_batch) (d := 8) (uq := false) (kl := true)
           (lab := None); [split; reflexivity | reflexivity]. }
  split; reflexivity.
Qed.

(** C4 fails as stated.  Construction with target dimension -3, from a file
    source or from a batch, and default construction, with target dimension
    0, all yield a pipeline. *)
Lemma construction_nonpositive_dimension_counterexample :
  dim (new_from_file blank (Some (ExternalFile 0)) false 1024 (-3) false true) = -3
  /\ (exists s, new_from_features blank (Some sample_batch) (-3) false true None = Ok s
                /\ dim s = -3)
  /\ raises (new_from_features blank (Some sample_batch) (-3) false true None) = false
  /\ dim (new_default blank) = 0.
Proof.
  split; [reflexivity|].
  split; [eexists; split; reflexivity|].
  split; reflexivity.
Qed.



End Float32Facts.

(** * Further properties of the life cycle and of the vector algebra *)

Section LifeCycleFacts.
Context {ST float32_t wide float64_t P : Type}.
Context {A : Arith ST float32_t wide} {H : Hashing} {PO : Parser.Ops ST float64_t P}.

Local Abbreviation Pipeline := (StreamingHashedSparseFeatures ST float64_t P).

Lemma run_call_configuration (s : Pipeline) (c : call) :
  dim (run_call s c) = dim s
  /\ use_quadratic (run_call s c) = use_quadratic s
  /\ keep_linear_terms (run_call s c) = keep_linear_terms s
  /\ has_labels (run_call s c) = has_labels s
  /\ seekable (run_call s c) = seekable s
  /\ working_file (run_call s c) = working_file s.
Proof.
  destruct c; cbn [run_call].
  - unfold start_parser. destruct (negb (Parser.is_running (parser s))); repeat split.
  - unfold get_next_example.
    destruct (Parser.get_next_example (parser s) empty_vector (current_label s))
      as [[[ok tmp] l] p].
    destruct ok; repeat split.
  - repeat split.
  - repeat split.
Qed.

(** X1.  No sequence of start, advance, release and stop changes the
    configuration of a pipeline: target dimension, the two quadratic flags,
    [has_labels], [seekable] and the working file stay as constructed. *)
Theorem lifecycle_keeps_configuration (calls : list call) :
  forall s : Pipeline,
    dim (run calls s) = dim s
    /\ use_quadratic (run calls s) = use_quadratic s
    /\ keep_linear_terms (run calls s) = keep_linear_terms s
    /\ has_labels (run calls s) = has_labels s
    /\ seekable (run calls s) = seekable s
    /\ working_file (run calls s) = working_file s.
Proof.
  induction calls as [|c calls IH]; intro s.
  - repeat split.
  - change (run (c :: calls) s) with (run calls (run_call s c)).
    destruct (IH (run_call s c)) as [Hd [Hq [Hk [Hl [Hs Hw]]]]].
    destruct (run_call_configuration s c) as [Hd' [Hq' [Hk' [Hl' [Hs' Hw']]]]].
    repeat split; congruence.
Qed.

(** X2.  [get_num_features] and [get_dim_feature_space] answer the target
    dimension given to the constructor, at every point of the life cycle: 0
    after default construction. *)
Theorem feature_count_is_constructor_dimension (o : Pipeline) file is_labelled size d uq kl
    batch lab (calls : list call) :
  get_num_features (run calls (new_from_file o file is_labelled size d uq kl)) = d
  /\ get_dim_feature_space (run calls (new_from_file o file is_labelled size d uq kl)) = d
  /\ get_num_features (run calls (new_default o)) = 0
  /\ get_dim_feature_space (run calls (new_default o)) = 0
  /\ exists s, new_from_features o (Some batch) d uq kl lab = Ok s
               /\ get_num_features (run calls s) = d
               /\ get_dim_feature_space (run calls s) = d.
Proof.
  unfold get_num_features, get_dim_feature_space, new_from_file, new_default.
  rewrite !run_dim, !init_dim.
  repeat split.
  eexists. split; [reflexivity|].
  rewrite run_dim. cbn [with_seekable with_parser dim]. rewrite init_dim.
  split; reflexivity.
Qed.

Lemma run_call_current (s : Pipeline) (c : call) :
  c <> Advance ->
  current_vector (run_call s c) = current_vector s
  /\ current_label (run_call s c) = current_label s.
Proof.
  intro Hc. destruct c; cbn [run_call]; try contradiction.
  - unfold start_parser. destruct (negb (Parser.is_running (parser s))); split; reflexivity.
  - split; reflexivity.
  - split; reflexivity.
Qed.

(** X3.  Only advance writes the current vector and the current label: a
    sequence of start, release and stop calls leaves both as they were. *)
Theorem only_advance_writes_current (calls : list call) :
  forall s : Pipeline,
    ~ In Advance calls ->
    current_vector (run calls s) = current_vector s
    /\ current_label (run calls s) = current_label s.
Proof.
  induction calls as [|c calls IH]; intros s Hno.
  - split; reflexivity.
  - change (run (c :: calls) s) with (run calls (run_call s c)).
    destruct (IH (run_call s c)) as [Hv Hl].
    { intro Hin. apply Hno. right. exact Hin. }
    destruct (run_call_current s (c := c)) as [Hv' Hl'].
    { intro Hc. apply Hno. left. exact Hc. }
    split; congruence.
Qed.

(** X4.  A successful advance overwrites the current vector: the state it
    leaves does not depend on the current vector held before. *)
Theorem advance_overwrites_current_vector (s : Pipeline) (v : SGSparseVector ST) :
  fst (get_next_example s) = true ->
  get_next_example (with_current_vector v s) = get_next_example s.
Proof.
  unfold get_next_example. cbn [with_current_vector parser current_label].
  destruct (Parser.get_next_example (parser s) empty_vector (current_label s))
    as [[[ok tmp] l] p].
  destruct ok; [reflexivity | discriminate].
Qed.

(** X5.  [start_parser] does nothing to a pipeline whose parser is running;
    with a parser that is running once started, starting twice is starting
    once. *)
Theorem start_parser_idempotent (this : Pipeline) :
  (Parser.is_running (parser this) = true -> start_parser this = this)
  /\ ((forall p : P, Parser.is_running (Parser.start_parser p) = true) ->
      start_parser (start_parser this) = start_parser this).
Proof.
  assert (Hnoop : forall s : Pipeline,
                    Parser.is_running (parser s) = true -> start_parser s = s).
  { intros s Hr. unfold start_parser. rewrite Hr. reflexivity. }
  split; [apply Hnoop|].
  intro Hlaw. apply Hnoop.
  unfold start_parser.
  destruct (Parser.is_running (parser this)) eqn:Hr; cbn [negb with_parser parser].
  - exact Hr.
  - apply Hlaw.
Qed.

Lemma dense_dot_loop_never_raises (cv : SGSparseVector ST) (vec2 : list float32_t) :
  forall (n : nat) (i : Z) (acc : float32_t),
    raises (dense_dot_loop n i cv vec2 acc) = false.
Proof.
  induction n as [|n IH]; intros i acc; cbn [dense_dot_loop].
  - reflexivity.
  - destruct (array_get (features cv) i) as [e|]; [|reflexivity].
    destruct (array_get vec2 (feat_index e)) as [x|]; [apply IH | reflexivity].
Qed.

Lemma add_to_dense_vec_loop_never_raises (cv : SGSparseVector ST) (alpha : float32_t) :
  forall (n : nat) (i : Z) (vec2 : list float32_t),
    raises (add_to_dense_vec_loop n i cv alpha vec2) = false.
Proof.
  induction n as [|n IH]; intros i vec2; cbn [add_to_dense_vec_loop].
  - reflexivity.
  - destruct (array_get (features cv) i) as [e|]; [|reflexivity].
    destruct (array_get vec2 (feat_index e)) as [x|]; [apply IH | reflexivity].
Qed.

(** X6.  The only exception [dense_dot] and [add_to_dense_vec] raise is the
    one of their length assertion: each raises exactly when the declared
    length differs from the target dimension, whatever the current vector,
    the array, [alpha] and [abs_val] are. *)
Theorem only_length_assertion_raises (this : Pipeline) (alpha : float32_t)
    (vec2 : list float32_t) (vec2_len : Z) (abs_val : bool) :
  raises (dense_dot this vec2 vec2_len) = negb (vec2_len =? dim this)
  /\ raises (add_to_dense_vec this alpha vec2 vec2_len abs_val)
     = negb (vec2_len =? dim this).
Proof.
  unfold dense_dot, add_to_dense_vec, ASSERT.
  destruct (vec2_len =? dim this); cbn [negb].
  - split; [apply dense_dot_loop_never_raises | apply add_to_dense_vec_loop_never_raises].
  - split; reflexivity.
Qed.

Lemma array_get_Some_range {X : Type} (a : list X) (i : Z) (x : X) :
  array_get a i = Some x -> 0 <= i < Z.of_nat (List.length a).
Proof.
  unfold array_get. destruct (Z.ltb_spec i 0) as [Hneg|Hpos]; [discriminate|].
  intro Hx. assert (Hlt : (Z.to_nat i < List.length a)%nat).
  { apply nth_error_Some. congruence. }
  lia.
Qed.

Lemma array_get_In {X : Type} (a : list X) (i : Z) (x : X) :
  array_get a i = Some x -> In x a.
Proof.
  unfold array_get. destruct (i <? 0); [discriminate|]. apply nth_error_In.
Qed.

Lemma list_set_other {X : Type} (a : list X) :
  forall (n j : nat) (x : X), n <> j -> nth_error (list_set a n x) j = nth_error a j.
Proof.
  induction a as [|h t IH]; intros n j x Hne; destruct n; cbn [list_set]; try reflexivity.
  - destruct j; [contradiction | reflexivity].
  - destruct j; [reflexivity|]. cbn [nth_error]. apply IH. congruence.
Qed.

Lemma add_to_dense_vec_loop_frame (cv : SGSparseVector ST) (alpha : float32_t) :
  forall (n : nat) (i : Z) (vec2 out : list float32_t),
    add_to_dense_vec_loop n i cv alpha vec2 = Ok out ->
    List.length out = List.length vec2
    /\ forall j : nat,
         (forall e, In e (features cv) -> feat_index e <> Z.of_nat j) ->
         nth_error out j = nth_error vec2 j.
Proof.
  induction n as [|n IH]; intros i vec2 out Hout; cbn [add_to_dense_vec_loop] in Hout.
  - injection Hout as <-. split; [reflexivity | intros; reflexivity].
  - destruct (array_get (features cv) i) as [e|] eqn:He; [|discriminate].
    destruct (array_get vec2 (feat_index e)) as [x|] eqn:Hx; [|discriminate].
    apply IH in Hout. destruct Hout as [Hlen Hframe].
    rewrite list_set_length in Hlen. split; [exact Hlen|].
    intros j Hj. rewrite (Hframe j Hj). apply list_set_other.
    apply array_get_In in He. apply array_get_Some_range in Hx.
    specialize (Hj e He). lia.
Qed.

(** X7.  [add_to_dense_vec] never resizes the array and writes only the
    slots named by the current vector: when it returns, the array has the
    length it had, and every slot whose index is not a feature index of the
    current vector holds what it held. *)
Theorem add_to_dense_vec_frame (this : Pipeline) (alpha : float32_t)
    (vec2 out : list float32_t) (vec2_len : Z) (abs_val : bool) :
  add_to_dense_vec this alpha vec2 vec2_len abs_val = Ok out ->
  List.length out = List.length vec2
  /\ forall j : nat,
       (forall e, In e (features (current_vector this)) -> feat_index e <> Z.of_nat j) ->
       nth_error out j = nth_error vec2 j.
Proof.
  unfold add_to_dense_vec, ASSERT.
  destruct (vec2_len =? dim this); [|discriminate].
  apply add_to_dense_vec_loop_frame.
Qed.

(** X8.  Before the first successful advance the current vector is empty:
    on a pipeline as constructed, [get_vector] is the empty vector,
    [dense_dot] with the target dimension as declared length returns 0 and
    [add_to_dense_vec] returns the array as it is, for every array. *)
Theorem before_first_advance (s : Pipeline) (alpha : float32_t)
    (vec2 : list float32_t) (abs_val : bool) :
  constructed s ->
  get_vector s = empty_vector
  /\ dense_dot s vec2 (dim s) = Ok f32_zero
  /\ add_to_dense_vec s alpha vec2 (dim s) abs_val = Ok vec2.
Proof.
  intro Hc. pose proof (constructed_current_vector Hc) as Hv.
  unfold get_vector, dense_dot, add_to_dense_vec, ASSERT.
  rewrite Z.eqb_refl, Hv. repeat split.
Qed.

Lemma run_call_well_formed (s : Pipeline) (c : call) :
  well_formed (current_vector s) -> well_formed (current_vector (run_call s c)).
Proof.
  intro Hs. destruct c; cbn [run_call].
  - unfold start_parser. destruct (negb (Parser.is_running (parser s))); exact Hs.
  - unfold get_next_example.
    destruct (Parser.get_next_example (parser s) empty_vector (current_label s))
      as [[[ok tmp] l] p].
    destruct ok; cbn [snd with_current_vector current_vector].
    + apply hash_vector_well_formed.
    + exact Hs.
  - exact Hs.
  - exact Hs.
Qed.

Lemma run_well_formed (calls : list call) :
  forall s : Pipeline,
    well_formed (current_vector s) -> well_formed (current_vector (run calls s)).
Proof.
  induction calls as [|c calls IH]; intros s Hs.
  - exact Hs.
  - change (run (c :: calls) s) with (run calls (run_call s c)).
    apply IH. apply run_call_well_formed. exact Hs.
Qed.

(** X9.  On every state reached from a constructed pipeline of positive
    target dimension, with an array of the target dimension's length, the
    two dense operations stay inside the array and return: [dense_dot] the
    sum of products, [add_to_dense_vec] the array with [alpha * value]
    ([abs(alpha) * value] under [abs_val]) added per entry, both as written
    out in the arithmetic.  (The hash transform is the one modelled from the
    specification.) *)
Theorem dense_operations_defined_on_reachable (s : Pipeline) (alpha : float32_t)
    (vec2 : list float32_t) (abs_val : bool) :
  reachable s -> 0 < dim s -> Z.of_nat (List.length vec2) = dim s ->
  dense_dot s vec2 (dim s) = Ok (sum_of_products (current_vector s) vec2)
  /\ add_to_dense_vec s alpha vec2 (dim s) abs_val
     = Ok (scaled_entries_added (if abs_val then f32_abs alpha else alpha)
                                (current_vector s) vec2).
Proof.
  intros [s0 [calls [Hc ->]]] Hd Hlen.
  assert (Hwf : well_formed (current_vector (run calls s0))).
  { apply run_well_formed. rewrite (constructed_current_vector Hc). reflexivity. }
  assert (Hin : indices_below (dim (run calls s0)) (current_vector (run calls s0))).
  { rewrite run_dim in *. apply run_indices_below; [exact Hd|].
    rewrite (constructed_current_vector Hc). constructor. }
  unfold dense_dot, add_to_dense_vec, ASSERT.
  rewrite Z.eqb_refl, Hwf, Nat2Z.id. unfold sum_of_products, scaled_entries_added. split.
  - apply dense_dot_loop_fold with (done := []); [reflexivity|].
    rewrite Hlen. exact Hin.
  - apply add_to_dense_vec_loop_fold with (done := []); [reflexivity|].
    rewrite Hlen. exact Hin.
Qed.

Lemma array_get_outside {X : Type} (a : list X) (i : Z) :
  ~ (0 <= i < Z.of_nat (List.length a)) -> array_get a i = None.
Proof.
  intro Hout. destruct (array_get a i) as [x|] eqn:Hx; [|reflexivity].
  apply array_get_Some_range in Hx. contradiction.
Qed.

Lemma dense_dot_loop_outside (cv : SGSparseVector ST) (vec2 : list float32_t) :
  forall (rest done : list (SGSparseVectorEntry ST)) (acc : float32_t),
    features cv = done ++ rest ->
    Exists (fun e => ~ index_in (Z.of_nat (List.length vec2)) e) rest ->
    dense_dot_loop (List.length rest) (Z.of_nat (List.length done)) cv vec2 acc = Undefined.
Proof.
  induction rest as [|e rest IH]; intros done acc Hcv Hex.
  - inversion Hex.
  - cbn [List.length dense_dot_loop]. rewrite Hcv, array_get_middle.
    destruct (array_get vec2 (feat_index e)) as [x|] eqn:Hx; [|reflexivity].
    apply array_get_Some_range in Hx.
    inversion Hex as [? ? Hbad | ? ? Hlater]; subst; [contradiction|].
    replace (Z.of_nat (List.length done) + 1) with (Z.of_nat (List.length (done ++ [e])))
      by (rewrite length_app; cbn; lia).
    apply IH; [|exact Hlater].
    rewrite Hcv, <- app_assoc. reflexivity.
Qed.

Lemma add_to_dense_vec_loop_outside (cv : SGSparseVector ST) (alpha : float32_t) :
  forall (rest done : list (SGSparseVectorEntry ST)) (vec2 : list float32_t),
    features cv = done ++ rest ->
    Exists (fun e => ~ index_in (Z.of_nat (List.length vec2)) e) rest ->
    add_to_dense_vec_loop (List.length rest) (Z.of_nat (List.length done)) cv alpha vec2
    = Undefined.
Proof.
  induction rest as [|e rest IH]; intros done vec2 Hcv Hex.
  - inversion Hex.
  - cbn [List.length add_to_dense_vec_loop]. rewrite Hcv, array_get_middle.
    destruct (array_get vec2 (feat_index e)) as [x|] eqn:Hx; [|reflexivity].
    apply array_get_Some_range in Hx.
    inversion Hex as [? ? Hbad | ? ? Hlater]; subst; [contradiction|].
    replace (Z.of_nat (List.length done) + 1) with (Z.of_nat (List.length (done ++ [e])))
      by (rewrite length_app; cbn; lia).
    apply IH.
    + rewrite Hcv, <- app_assoc. reflexivity.
    + rewrite list_set_length. exact Hlater.
Qed.

(** X10.  The length assertion compares the declared length only; indices
    are not checked against the array.  With the declared length equal to
    the target dimension and a current vector one of whose indices is
    outside the array, neither dense operation raises or returns: the
    access is out of bounds. *)
Theorem dense_operations_unchecked_index (this : Pipeline) (alpha : float32_t)
    (vec2 : list float32_t) (abs_val : bool) :
  well_formed (current_vector this) ->
  Exists (fun e => ~ index_in (Z.of_nat (List.length vec2)) e)
         (features (current_vector this)) ->
  dense_dot this vec2 (dim this) = Undefined
  /\ add_to_dense_vec this alpha vec2 (dim this) abs_val = Undefined.
Proof.
  intros Hwf Hex. unfold dense_dot, add_to_dense_vec, ASSERT.
  rewrite Z.eqb_refl, Hwf, Nat2Z.id. split.
  - apply dense_dot_loop_outside with (done := []); [reflexivity | exact Hex].
  - apply add_to_dense_vec_loop_outside with (done := []); [reflexivity | exact Hex].
Qed.

End LifeCycleFacts.

(** ** The further properties at work on binary32 values *)

Module Float32LifeCycle.
Import Float32 Float32Samples.

(** Start, release and stop on the sample pipeline. *)
Lemma only_advance_writes_current_witness :
  ~ In Advance [Start; Release; Stop]
  /\ current_vector (run [Start; Release; Stop] sample_state) = current_vector sample_state
  /\ current_label (run [Start; Release; Stop] sample_state) = current_label sample_state.
Proof.
  assert (Hno : ~ In Advance [Start; Release; Stop]).
  { intros [Hc | [Hc | [Hc | []]]]; discriminate Hc. }
  split; [exact Hno|].
  exact (only_advance_writes_current [Start; Release; Stop] sample_state Hno).
Defined.

(** The sample pipeline as constructed has one example to hand out. *)
Lemma advance_overwrites_current_vector_witness :
  fst (get_next_example sample_start) = true
  /\ get_next_example (with_current_vector (sv [(9, 9)]) sample_start)
     = get_next_example sample_start.
Proof.
  assert (Hok : fst (get_next_example sample_start) = true) by reflexivity.
  split; [exact Hok|].
  exact (advance_overwrites_current_vector sample_start (sv [(9, 9)]) Hok).
Defined.

(** The parser of the sample pipeline is running after its start. *)
Lemma start_parser_idempotent_witness :
  start_parser sample_state = sample_state
  /\ start_parser (start_parser sample_start) = start_parser sample_start.
Proof.
  split.
  - apply (proj1 (start_parser_idempotent sample_state)). reflexivity.
  - apply (proj2 (start_parser_idempotent sample_start)). intro p. reflexivity.
Defined.

(** [broad] holds {(3, 2.0), (7, 5.0)} in 8 dimensions: slots 3 and 7 are
    written, slot 0 is not. *)
Lemma add_to_dense_vec_frame_witness :
  add_to_dense_vec broad (of_Z 1) (repeat (of_Z 1) 8) 8 false
  = Ok [of_Z 1; of_Z 1; of_Z 1; of_Z 3; of_Z 1; of_Z 1; of_Z 1; of_Z 6]
  /\ List.length [of_Z 1; of_Z 1; of_Z 1; of_Z 3; of_Z 1; of_Z 1; of_Z 1; of_Z 6]
     = List.length (repeat (of_Z 1) 8)
  /\ nth_error [of_Z 1; of_Z 1; of_Z 1; of_Z 3; of_Z 1; of_Z 1; of_Z 1; of_Z 6] 0
     = nth_error (repeat (of_Z 1) 8) 0.
Proof.
  assert (Hout : add_to_dense_vec broad (of_Z 1) (repeat (of_Z 1) 8) 8 false
                 = Ok [of_Z 1; of_Z 1; of_Z 1; of_Z 3; of_Z 1; of_Z 1; of_Z 1; of_Z 6])
    by reflexivity.
  destruct (add_to_dense_vec_frame broad (of_Z 1) (repeat (of_Z 1) 8) 8 false Hout)
    as [Hlen Hframe].
  split; [exact Hout|]. split; [exact Hlen|].
  apply Hframe. intros e [<- | [<- | []]]; discriminate.
Defined.

(** The sample pipeline as constructed, before its first advance. *)
Lemma before_first_advance_witness :
  constructed sample_start
  /\ get_vector sample_start = empty_vector
  /\ dense_dot sample_start [of_Z 5] (dim sample_start) = Ok f32_zero
  /\ add_to_dense_vec sample_start (of_Z 3) [of_Z 5] (dim sample_start) true = Ok [of_Z 5].
Proof.
  split; [exact Float32Facts.sample_start_constructed|].
  exact (before_first_advance (of_Z 3) [of_Z 5] true Float32Facts.sample_start_constructed).
Defined.

Lemma broad_reachable : reachable broad.
Proof.
  exists broad_start, [Start; Advance]. split; [|reflexivity].
  apply constructed_from_features
    with (o := blank) (feats := Some pair_batch) (d := 8) (uq := false) (kl := true)
         (lab := None); [split; reflexivity | reflexivity].
Qed.

(** [broad] holds {(3, 2.0), (7, 5.0)} in 8 dimensions.  Against
    [1.0; ...; 8.0] the dot product is 4.0 * 2.0 + 8.0 * 5.0 = 48.0; adding
    with alpha = -1.0 under [abs_val] adds 2.0 to slot 3 and 5.0 to slot
    7. *)
Lemma dense_operations_defined_on_reachable_witness :
  reachable broad
  /\ 0 < dim broad
  /\ Z.of_nat (List.length ramp) = dim broad
  /\ dense_dot broad ramp (dim broad) = Ok (of_Z 48)
  /\ add_to_dense_vec broad (of_Z (-1)) ramp (dim broad) true
     = Ok (map of_Z [1; 2; 3; 6; 5; 6; 7; 13]).
Proof.
  assert (Hd : 0 < dim broad) by (vm_compute; reflexivity).
  assert (Hlen : Z.of_nat (List.length ramp) = dim broad) by reflexivity.
  split; [exact broad_reachable|]. split; [exact Hd|]. split; [exact Hlen|].
  destruct (dense_operations_defined_on_reachable (of_Z (-1)) ramp true
              broad_reachable Hd Hlen) as [Hdot Hadd].
  split; [rewrite Hdot; reflexivity | rewrite Hadd; reflexivity].
Defined.

(** The sample pipeline holds {(0, -2.0)}; an empty array declared of
    length 1 passes the assertion and is accessed at slot 0. *)
Lemma dense_operations_unchecked_index_witness :
  dense_dot sample_state [] (dim sample_state) = Undefined
  /\ add_to_dense_vec sample_state (of_Z 1) [] (dim sample_state) false = Undefined.
Proof.
  apply dense_operations_unchecked_index.
  - reflexivity.
  - apply Exists_cons_hd. unfold index_in. cbn. lia.
Defined.

End Float32LifeCycle.
